(** * SimPEG.potential_fields.magnetics.survey : the magnetic survey

    A shallow embedding of [MagneticSurvey] (survey.py): the receiver and
    source-field objects it reads, the lazily cached [vnD] vector, [nD],
    the three properties delegated to the first receiver, [eval] and the
    constructor.  Python exceptions are results, attribute writes and
    [print] are steps of a small state-and-exception monad over the
    survey object and the standard output. *)

From Stdlib Require Import ZArith List String Floats.
From Stdlib Require Import Lia.
Import ListNotations.

Local Open Scope Z_scope.

(** ** Python values, exceptions *)

(** The exceptions the survey code can raise. *)
Inductive exn : Type :=
| IndexError      (* [l[0]] on an empty list *)
| KeyError        (* [d[k]] with [k] not a key of [d] *)
| ValueError      (* truth value of an array with more than one element *)
| AttributeError. (* a method the object does not have *)

Inductive result (A : Type) : Type :=
| Ok (a : A)
| Raise (e : exn).
Arguments Ok {A} a.
Arguments Raise {A} e.

(** Modelled from the spec: the receiver class (receivers.py) is not among
    the sources of this module.  What a receiver stores under a component
    key is an "optional boolean mask over locations": [None], or a numpy
    boolean array (the survey calls [.sum()] on it). *)
Inductive pyval : Type :=
| PyNone
| BoolArray (a : list bool).

(** [ndarray.__bool__]: an empty array is falsy (numpy warns that this is
    deprecated), an array of one element has the truth value of that
    element, any longer array raises ValueError ("The truth value of an
    array with more than one element is ambiguous"). *)
Definition ndarray_bool (a : list bool) : result bool :=
  match a with
  | [] => Ok false
  | [b] => Ok b
  | _ :: _ :: _ => Raise ValueError
  end.

(** [ndarray.sum()] of a boolean array: the number of [True] entries. *)
Fixpoint ndarray_sum (a : list bool) : Z :=
  match a with
  | [] => 0
  | b :: a' => (if b then 1 else 0) + ndarray_sum a'
  end.

(** The truth test of an [if] statement. *)
Definition truth (v : pyval) : result bool :=
  match v with
  | PyNone => Ok false
  | BoolArray a => ndarray_bool a
  end.

(** The method call [v.sum()]. *)
Definition call_sum (v : pyval) : result Z :=
  match v with
  | PyNone => Raise AttributeError
  | BoolArray a => Ok (ndarray_sum a)
  end.

(** [l[0]] *)
Definition getitem0 {A : Type} (l : list A) : result A :=
  match l with
  | [] => Raise IndexError
  | x :: _ => Ok x
  end.

(** [a.shape[0]] of an array stored as its list of rows. *)
Definition shape0 {A : Type} (a : list A) : Z := Z.of_nat (List.length a).

(** ** Component dictionaries

    A Python [dict] keeps its keys in insertion order; the survey iterates
    over that order, so the dictionary is its list of items. *)
Definition dict : Type := list (string * pyval).

Definition keys (d : dict) : list string := map fst d.

Fixpoint getitem (d : dict) (k : string) : result pyval :=
  match d with
  | [] => Raise KeyError
  | (k', v) :: d' => if String.eqb k' k then Ok v else getitem d' k
  end.

(** ** Receivers and the source field *)

Module Receiver.
(** Modelled from the spec: the receiver class (receivers.py) is not among
    the sources of this module.  A receiver is "a set of observation
    locations (N,3) plus a mapping component -> optional boolean mask over
    locations"; the survey reads its [locations] and its [components]. *)
Record t : Type := mk {
  locations : list (float * float * float);
  components : dict
}.
End Receiver.

Module SourceField.
(** Modelled from the spec: the source-field class (sources.py) is not among
    the sources of this module.  It "owns an ordered list of Receivers and
    one InducingField"; the tutorial builds it from [receiver_list] and
    [parameters], the (intensity, inclination, declination) triple. *)
Record t : Type := mk {
  receiver_list : list Receiver.t;
  parameters : float * float * float
}.
End SourceField.

(** ** The survey *)

Module MagneticSurvey.

(** The two shapes the [_vnD] attribute takes: the Python list that the
    loop appends to, and the array [np.asarray] makes of it. *)
Inductive vec : Type :=
| PyList (l : list Z)
| NdArray (l : list Z).

Definition entries (v : vec) : list Z :=
  match v with
  | PyList l => l
  | NdArray l => l
  end.

(** [np.asarray] *)
Definition asarray (v : vec) : vec := NdArray (entries v).

Definition total (l : list Z) : Z := fold_right Z.add 0 l.

(** [v.sum()]: a Python list has no such method.  The entries are numbers
    of locations, far inside the 64-bit range of the array, so the sum is
    taken in [Z]. *)
Definition vec_sum (v : vec) : result Z :=
  match v with
  | PyList _ => Raise AttributeError
  | NdArray l => Ok (total l)
  end.

(** The survey object.  [_vnD = None] stands for both "attribute not set"
    and "attribute set to None": [getattr(self, '_vnD', None)] reads the
    two alike. *)
Record t : Type := mk {
  source_field : SourceField.t;
  _vnD : option vec
}.

(** What a method can touch: the survey and the standard output, one
    entry per [print] call. *)
Record process : Type := Process {
  self : t;
  stdout : list (list Z)
}.

(** Computations that read and write the process and may raise; a raised
    exception keeps the writes made before it. *)
Definition M (A : Type) : Type := process -> result A * process.

Definition ret {A : Type} (a : A) : M A := fun p => (Ok a, p).

Definition lift {A : Type} (r : result A) : M A := fun p => (r, p).

Definition bind {A B : Type} (m : M A) (k : A -> M B) : M B :=
  fun p =>
    match m p with
    | (Ok a, p') => k a p'
    | (Raise e, p') => (Raise e, p')
    end.

Declare Scope py_scope.
Delimit Scope py_scope with py.
Notation "x <- m ;; k" := (bind m (fun x => k))
  (at level 61, m at next level, right associativity) : py_scope.
Notation "m ;; k" := (bind m (fun _ => k))
  (at level 61, right associativity) : py_scope.
Local Open Scope py_scope.

Fixpoint for_each {A : Type} (l : list A) (body : A -> M unit) : M unit :=
  match l with
  | [] => ret tt
  | x :: l' => body x ;; for_each l' body
  end.

(** [self.source_field] *)
Definition get_source_field : M SourceField.t :=
  fun p => (Ok (source_field (self p)), p).

(** [getattr(self, '_vnD', None)] *)
Definition getattr_vnD : M (option vec) :=
  fun p => (Ok (_vnD (self p)), p).

(** [self._vnD = v] *)
Definition setattr_vnD (v : option vec) : M unit :=
  fun p =>
    (Ok tt,
     {| self := {| source_field := source_field (self p); _vnD := v |};
        stdout := stdout p |}).

(** [self._vnD], where the code reads it after having set it. *)
Definition get_vnD : M vec :=
  fun p =>
    match _vnD (self p) with
    | Some v => (Ok v, p)
    | None => (Raise AttributeError, p)
    end.

(** [self._vnD.append(x)] *)
Definition append_vnD (x : Z) : M unit :=
  v <- get_vnD ;;
  match v with
  | PyList l => setattr_vnD (Some (PyList (l ++ [x])))
  | NdArray _ => lift (Raise AttributeError)
  end.

(** [print(self._vnD)] *)
Definition print_vnD : M unit :=
  v <- get_vnD ;;
  fun p => (Ok tt, {| self := self p; stdout := stdout p ++ [entries v] |}).

(** Modelled from the spec: [BaseSurvey.__init__] (SimPEG/survey.py) is not
    among the sources of this module.  The spec gives a survey no state
    besides its source field and the cached counts, so the base
    initialiser, called without keyword arguments as the tutorial calls it,
    returns and leaves both as they are. *)
Definition BaseSurvey__init__ (s : t) : result t := Ok s.

(** [__init__(self, source_field)]: the attribute is stored, then the base
    class is initialised.  [_vnD] is not set. *)
Definition __init__ (source_field : SourceField.t) : result t :=
  BaseSurvey__init__ {| source_field := source_field; _vnD := None |}.

Definition eval {A : Type} (fields : A) : M A := ret fields.

Definition nRx : M Z :=
  sf <- get_source_field ;;
  r <- lift (getitem0 (SourceField.receiver_list sf)) ;;
  ret (shape0 (Receiver.locations r)).

Definition receiver_locations : M (list (float * float * float)) :=
  sf <- get_source_field ;;
  r <- lift (getitem0 (SourceField.receiver_list sf)) ;;
  ret (Receiver.locations r).

Definition components : M dict :=
  sf <- get_source_field ;;
  r <- lift (getitem0 (SourceField.receiver_list sf)) ;;
  ret (Receiver.components r).

(** The body of the inner loop of [vnD]. *)
Definition vnD_component (receiver : Receiver.t) (component : string) : M unit :=
  m <- lift (getitem (Receiver.components receiver) component) ;;
  b <- lift (truth m) ;;
  if b : bool then
    m' <- lift (getitem (Receiver.components receiver) component) ;;
    s <- lift (call_sum m') ;;
    append_vnD s
  else
    n <- nRx ;;
    append_vnD n.

Definition vnD : M vec :=
  c <- getattr_vnD ;;
  match c with
  | None =>
      setattr_vnD (Some (PyList [])) ;;
      sf <- get_source_field ;;
      for_each (SourceField.receiver_list sf) (fun receiver =>
        for_each (keys (Receiver.components receiver))
                 (vnD_component receiver)) ;;
      print_vnD ;;
      l <- get_vnD ;;
      setattr_vnD (Some (asarray l)) ;;
      get_vnD
  | Some v => ret v
  end.

Definition nD : M Z :=
  v <- vnD ;;
  lift (vec_sum v).

End MagneticSurvey.

Import MagneticSurvey.
Local Open Scope py_scope.

(** ** The data layout, as a pure function of the source field *)

(** The (receiver, component) pairs in the order the two loops of [vnD]
    visit them: receiver-list order, then key order within a receiver. *)
Definition layout (rs : list Receiver.t) : list (Receiver.t * string) :=
  flat_map (fun r => map (pair r) (keys (Receiver.components r))) rs.

(** [nRx] as a function of the source field alone. *)
Definition first_count (sf : SourceField.t) : result Z :=
  match SourceField.receiver_list sf with
  | [] => Raise IndexError
  | r :: _ => Ok (shape0 (Receiver.locations r))
  end.

(** What one turn of the inner loop appends for a stored value, [n] being
    what [self.nRx] evaluates to: [n] for [None], for an empty array and for
    [[False]]; [1] for [[True]]; nothing for a longer array, whose truth
    test raises. *)
Definition datum (n : result Z) (m : pyval) : result Z :=
  match m with
  | PyNone => n
  | BoolArray [] => n
  | BoolArray [false] => n
  | BoolArray [true] => Ok 1
  | BoolArray (_ :: _ :: _) => Raise ValueError
  end.

Definition datum_at (n : result Z) (p : Receiver.t * string) : result Z :=
  match getitem (Receiver.components (fst p)) (snd p) with
  | Ok m => datum n m
  | Raise e => Raise e
  end.

(** The counts appended before the first exception, and that exception. *)
Fixpoint collect (n : result Z) (ps : list (Receiver.t * string))
  : list Z * option exn :=
  match ps with
  | [] => ([], None)
  | p :: ps' =>
      match datum_at n p with
      | Ok x => let (l, e) := collect n ps' in (x :: l, e)
      | Raise e => ([], Some e)
      end
  end.

(** A survey as [__init__] leaves it, in a process that has printed nothing. *)
Definition new_survey (sf : SourceField.t) : process :=
  {| self := {| source_field := sf; _vnD := None |}; stdout := [] |}.


(** The caller replaces the source field and leaves the cache alone. *)
Definition with_source_field (sf : SourceField.t) (p : process) : process :=
  {| self := {| source_field := sf; _vnD := _vnD (self p) |};
     stdout := stdout p |}.

(** The cache holds no half-built Python list. *)
Definition settled (p : process) : Prop :=
  match _vnD (self p) with
  | Some (PyList _) => False
  | _ => True
  end.

(** The cache is empty, or holds the array the loops make of the current
    source field. *)
Definition coherent (p : process) : Prop :=
  match _vnD (self p) with
  | None => True
  | Some (NdArray l) =>
      collect (first_count (source_field (self p)))
              (layout (SourceField.receiver_list (source_field (self p))))
      = (l, None)
  | Some (PyList _) => False
  end.

(** Reads of the two cached properties, as a caller issues them. *)
Inductive access : Type := ReadVnD | ReadND.

Definition step (a : access) (p : process) : process :=
  match a with
  | ReadVnD => snd (vnD p)
  | ReadND => snd (nD p)
  end.

Definition run (l : list access) (p : process) : process :=
  fold_left (fun q a => step a q) l p.



(** ** Concrete surveys *)

(** The inducing field of the tutorial: 50000 nT, inclination 90, declination 0. *)
Definition inducing_field : float * float * float := (50000, 90, 0)%float.

(** Five stations on a line, 10 m up. *)
Definition line5 : list (float * float * float) :=
  [(-80, 0, 10); (-40, 0, 10); (0, 0, 10); (40, 0, 10); (80, 0, 10)]%float.

(** [{'tmi': None}] over the five stations. *)
Definition rx_tmi : Receiver.t :=
  Receiver.mk line5 [("tmi"%string, PyNone)].

(** [{'bx': array([True, True, True, False, False])}] over the five stations. *)
Definition rx_bx_masked : Receiver.t :=
  Receiver.mk line5
    [("bx"%string, BoolArray [true; true; true; false; false])].

(** One station measuring three components: a mask that selects it, an
    empty mask, and a mask that deselects it. *)
Definition rx_point : Receiver.t :=
  Receiver.mk [(0, 0, 10)%float]
    [("bx"%string, BoolArray [true]); ("by"%string, BoolArray []);
     ("bz"%string, BoolArray [false])].

Definition two_receivers : SourceField.t :=
  SourceField.mk [rx_tmi; rx_bx_masked] inducing_field.

Definition line_and_point : SourceField.t :=
  SourceField.mk [rx_tmi; rx_point] inducing_field.

(** The tutorial's shape: one receiver measuring [tmi]. *)
Definition tmi_only : SourceField.t :=
  SourceField.mk [rx_tmi] inducing_field.

Definition no_receivers : SourceField.t :=
  SourceField.mk [] inducing_field.

(** [new_survey two_receivers] after a read of [vnD]: the list holds the
    count of the first receiver only. *)
Definition half_built : process :=
  {| self := {| source_field := two_receivers; _vnD := Some (PyList [5]) |};
     stdout := [] |}.

(** [new_survey line_and_point] after a read of [vnD]. *)
Definition counted : process :=
  {| self := {| source_field := line_and_point;
                _vnD := Some (NdArray [5; 1; 5; 5]) |};
     stdout := [[5; 1; 5; 5]] |}.



(** Three other stations, 20 m up. *)
Definition line3 : list (float * float * float) :=
  [(0, -40, 20); (0, 0, 20); (0, 40, 20)]%float.

(** Two gradient components over the three stations, neither masked. *)
Definition rx_gradient : Receiver.t :=
  Receiver.mk line3 [("bxx"%string, PyNone); ("bxy"%string, BoolArray [])].

Definition line_and_gradient : SourceField.t :=
  SourceField.mk [rx_tmi; rx_gradient] inducing_field.

(** The components of [rx_point], measured at the three stations instead. *)
Definition rx_point_moved : Receiver.t :=
  Receiver.mk line3 (Receiver.components rx_point).

(** [line_and_point] with its second receiver moved and another inducing
    field. *)
Definition line_and_point_moved : SourceField.t :=
  SourceField.mk [rx_tmi; rx_point_moved] (30000, 60, 15)%float.

(** A receiver that measures nothing. *)
Definition rx_silent : Receiver.t := Receiver.mk line3 [].

(** ** The loops of [vnD] *)

Lemma nRx_first_count (p : process) :
  nRx p = (first_count (source_field (self p)), p).
Proof.
  unfold nRx, first_count, bind, get_source_field, lift, ret; cbn.
  destruct (SourceField.receiver_list (source_field (self p))); reflexivity.
Qed.

Lemma datum_truth (n : result Z) (m : pyval) :
  datum n m =
  match truth m with
  | Ok true => call_sum m
  | Ok false => n
  | Raise e => Raise e
  end.
Proof.
  destruct m as [|[|[] [|]]]; reflexivity.
Qed.

Section Loops.

(** The survey's source field and the output so far stay as they are while
    the loops run; only the list in [_vnD] grows. *)
Variable sf : SourceField.t.
Variable out : list (list Z).

Lemma vnD_component_spec (acc : list Z) (r : Receiver.t) (k : string) :
  vnD_component r k (Process (mk sf (Some (PyList acc))) out) =
  match datum_at (first_count sf) (r, k) with
  | Ok x => (Ok tt, Process (mk sf (Some (PyList (acc ++ [x])))) out)
  | Raise e => (Raise e, Process (mk sf (Some (PyList acc))) out)
  end.
Proof.
  unfold vnD_component, datum_at; cbn [fst snd].
  unfold bind at 1, lift at 1.
  destruct (getitem (Receiver.components r) k) as [m|e]; [|reflexivity].
  rewrite datum_truth.
  unfold bind at 1, lift at 1.
  destruct (truth m) as [[|]|e]; [| |reflexivity].
  - unfold bind at 1, lift at 1. unfold bind at 1, lift at 1.
    destruct (call_sum m) as [s|e]; reflexivity.
  - unfold bind at 1. rewrite nRx_first_count; cbn [self source_field].
    destruct (first_count sf) as [n|e]; reflexivity.
Qed.

Lemma collect_app (n : result Z) (ps qs : list (Receiver.t * string)) :
  collect n (ps ++ qs) =
  match collect n ps with
  | (l, None) => let (l', e) := collect n qs in (l ++ l', e)
  | (l, Some x) => (l, Some x)
  end.
Proof.
  induction ps as [|p ps IH]; cbn [collect app].
  - destruct (collect n qs); reflexivity.
  - destruct (datum_at n p) as [x|e]; [|reflexivity].
    rewrite IH. destruct (collect n ps) as [l [x'|]]; [reflexivity|].
    destruct (collect n qs); reflexivity.
Qed.

(** The inner loop over the keys of one receiver. *)
Lemma inner_loop_spec (r : Receiver.t) (ks : list string) (acc : list Z) :
  for_each ks (vnD_component r) (Process (mk sf (Some (PyList acc))) out) =
  match collect (first_count sf) (map (pair r) ks) with
  | (l, None) => (Ok tt, Process (mk sf (Some (PyList (acc ++ l)))) out)
  | (l, Some x) => (Raise x, Process (mk sf (Some (PyList (acc ++ l)))) out)
  end.
Proof.
  revert acc; induction ks as [|k ks IH]; intros acc; cbn [for_each map collect].
  - unfold ret. rewrite app_nil_r. reflexivity.
  - unfold bind at 1. rewrite vnD_component_spec.
    destruct (datum_at (first_count sf) (r, k)) as [x|e].
    + rewrite IH.
      destruct (collect (first_count sf) (map (pair r) ks)) as [l [x'|]];
        rewrite <- app_assoc; reflexivity.
    + rewrite app_nil_r. reflexivity.
Qed.

(** The outer loop over a list of receivers. *)
Lemma outer_loop_spec (rs : list Receiver.t) (acc : list Z) :
  for_each rs
    (fun receiver =>
       for_each (keys (Receiver.components receiver)) (vnD_component receiver))
    (Process (mk sf (Some (PyList acc))) out) =
  match collect (first_count sf) (layout rs) with
  | (l, None) => (Ok tt, Process (mk sf (Some (PyList (acc ++ l)))) out)
  | (l, Some x) => (Raise x, Process (mk sf (Some (PyList (acc ++ l)))) out)
  end.
Proof.
  revert acc; induction rs as [|r rs IH]; intros acc.
  - cbn. unfold ret. rewrite app_nil_r. reflexivity.
  - cbn [for_each]. unfold layout; cbn [flat_map]; fold (layout rs).
    unfold bind at 1. rewrite inner_loop_spec, collect_app.
    destruct (collect (first_count sf)
                (map (pair r) (keys (Receiver.components r)))) as [l [x|]];
      [reflexivity|].
    rewrite IH.
    destruct (collect (first_count sf) (layout rs)) as [l' [x'|]];
      rewrite app_assoc; reflexivity.
Qed.

(** A read of [vnD] with the cache empty: the loops run, and either the
    array is stored, printed and returned, or the exception leaves the list
    built so far in [_vnD]. *)
Lemma vnD_unset :
  vnD (Process (mk sf None) out) =
  match collect (first_count sf) (layout (SourceField.receiver_list sf)) with
  | (l, None) =>
      (Ok (NdArray l), Process (mk sf (Some (NdArray l))) (out ++ [l]))
  | (l, Some x) => (Raise x, Process (mk sf (Some (PyList l))) out)
  end.
Proof.
  unfold vnD. unfold bind at 1, getattr_vnD at 1; cbn [self _vnD].
  unfold bind at 1, setattr_vnD at 1; cbn [self source_field stdout].
  unfold bind at 1, get_source_field at 1; cbn [self source_field].
  unfold bind at 1. rewrite outer_loop_spec; cbn [app].
  destruct (collect (first_count sf) (layout (SourceField.receiver_list sf)))
    as [l [x|]]; reflexivity.
Qed.

(** A read of [vnD] with the cache set returns the cache and does nothing. *)
Lemma vnD_cached (v : vec) :
  vnD (Process (mk sf (Some v)) out) = (Ok v, Process (mk sf (Some v)) out).
Proof. reflexivity. Qed.

End Loops.

Lemma length_layout (rs : list Receiver.t) :
  List.length (layout rs) =
  fold_right Nat.add 0%nat
    (map (fun r => List.length (Receiver.components r)) rs).
Proof.
  induction rs as [|r rs IH]; [reflexivity|].
  unfold layout; cbn [flat_map map fold_right]; fold (layout rs).
  rewrite length_app, IH. unfold keys. now rewrite !length_map.
Qed.

(** When no exception stops it, [collect] gives one count per pair, each
    the count of its own pair, in the order of the pairs. *)
Lemma collect_Forall2 (n : result Z) (ps : list (Receiver.t * string))
      (l : list Z) :
  collect n ps = (l, None) ->
  Forall2 (fun p x => datum_at n p = Ok x) ps l.
Proof.
  revert l; induction ps as [|p ps IH]; intros l; cbn [collect].
  - intros [= <-]. constructor.
  - destruct (datum_at n p) as [x|e] eqn:E; [|discriminate].
    destruct (collect n ps) as [l' e'] eqn:C.
    intros [= <- ->]. constructor; [exact E | now apply IH].
Qed.

(** ** Reads of [vnD] and [nD] *)

(** Case analysis on the cache of a process: set, or unset; in the second
    case the read is the run of the loops. *)
Ltac cache_cases p :=
  let sf := fresh "sf" in
  let c := fresh "c" in
  let out := fresh "out" in
  destruct p as [[sf [c|]] out];
  [ rewrite ?vnD_cached | rewrite ?vnD_unset ].

(** The loops either were stopped by an exception [x] or gave the list [l]. *)
Ltac loop_cases l x :=
  match goal with
  | |- context [collect ?n ?ps] => destruct (collect n ps) as [l [x|]] eqn:?
  end.

(** [nD] is [vnD] followed by the sum of what it returned. *)
Lemma nD_unfold (p : process) :
  nD p =
  match vnD p with
  | (Ok v, p') => (vec_sum v, p')
  | (Raise e, p') => (Raise e, p')
  end.
Proof. reflexivity. Qed.

(** The two reads leave the same process behind. *)
Lemma step_nD_vnD (p : process) : step ReadND p = step ReadVnD p.
Proof.
  unfold step. rewrite nD_unfold. destruct (vnD p) as [[v|e] p']; reflexivity.
Qed.

(** What a returning read of [vnD] leaves: the returned value in the cache,
    the same source field. *)
Lemma vnD_post (p p' : process) (v : vec) :
  vnD p = (Ok v, p') ->
  _vnD (self p') = Some v /\ source_field (self p') = source_field (self p).
Proof.
  cache_cases p.
  - intros [= <- <-]. split; reflexivity.
  - loop_cases l x; [discriminate|].
    intros [= <- <-]. split; reflexivity.
Qed.

(** From a settled cache, a returning read of [vnD] returns an array. *)
Lemma vnD_array (p p' : process) (v : vec) :
  settled p -> vnD p = (Ok v, p') -> v = NdArray (entries v).
Proof.
  cache_cases p; unfold settled; cbn [self _vnD].
  - destruct c; [contradiction|].
    intros _ [= <- _]. reflexivity.
  - loop_cases l x; [discriminate|].
    intros _ [= <- _]. reflexivity.
Qed.

(** Once the cache is set, a read changes nothing. *)
Lemma step_cached (a : access) (p : process) (v : vec) :
  _vnD (self p) = Some v -> step a p = p.
Proof.
  destruct a; [|rewrite step_nD_vnD];
    destruct p as [[sf c] out]; cbn [self _vnD]; intros ->; reflexivity.
Qed.

(** Any read sets the cache. *)
Lemma step_sets_cache (a : access) (p : process) :
  exists v, _vnD (self (step a p)) = Some v.
Proof.
  destruct a; [|rewrite step_nD_vnD]; unfold step; cache_cases p.
  1,3: eexists; reflexivity.
  all: loop_cases l x; eexists; reflexivity.
Qed.

(** One read: the source field stays, the output grows by at most one line. *)
Lemma step_frame (a : access) (p : process) :
  source_field (self (step a p)) = source_field (self p) /\
  exists printed : list (list Z),
    stdout (step a p) = stdout p ++ printed /\ (List.length printed <= 1)%nat.
Proof.
  destruct a; [|rewrite step_nD_vnD]; unfold step; cache_cases p.
  1,3: split; [reflexivity|]; exists []; cbn; rewrite app_nil_r; auto.
  all: loop_cases l x; (split; [reflexivity|]).
  1,3: exists []; cbn; rewrite app_nil_r; auto.
  all: exists [l]; cbn; auto.
Qed.

(** After the first read, further reads change nothing. *)
Lemma run_cons (a : access) (l : list access) (p : process) :
  run (a :: l) p = step a p.
Proof.
  unfold run; cbn [fold_left].
  destruct (step_sets_cache a p) as [v Hv].
  generalize dependent (step a p). clear a p.
  induction l as [|b l IH]; intros q Hq; cbn [fold_left]; [reflexivity|].
  rewrite (step_cached b q v Hq). now apply IH.
Qed.

(** The survey the constructor returns is coherent, whatever was printed
    before. *)
Lemma coherent_init (sf : SourceField.t) (s : MagneticSurvey.t)
      (out : list (list Z)) :
  __init__ sf = Ok s -> coherent (Process s out).
Proof.
  unfold __init__, BaseSurvey__init__. intros [= <-]. exact I.
Qed.

Lemma coherent_settled (p : process) : coherent p -> settled p.
Proof.
  unfold coherent, settled. destruct (_vnD (self p)) as [[l|l]|]; auto.
Qed.


(** From a coherent cache, a returning read gives the counts the loops make
    of the source field. *)
Lemma vnD_coherent (p p' : process) (v : vec) :
  coherent p -> vnD p = (Ok v, p') ->
  collect (first_count (source_field (self p)))
          (layout (SourceField.receiver_list (source_field (self p))))
  = (entries v, None).
Proof.
  destruct p as [[sf [c|]] out]; unfold coherent; cbn [self _vnD source_field].
  - rewrite vnD_cached. destruct c as [l|l]; [contradiction|].
    intros H [= <- _]. exact H.
  - rewrite vnD_unset.
    destruct (collect _ _) as [l [x|]] eqn:C; [discriminate|].
    intros _ [= <- _]. reflexivity.
Qed.

(** ** Which reads return and which raise *)

(** A key that is found is a key of the dictionary. *)
Lemma getitem_Ok_key (d : dict) (k : string) (m : pyval) :
  getitem d k = Ok m -> In k (keys d).
Proof.
  induction d as [|[k' v] d IH]; cbn [getitem keys map fst]; [discriminate|].
  destruct (String.eqb_spec k' k) as [->|_].
  - intros _. now left.
  - intros H. right. now apply IH.
Qed.

(** A key of the dictionary is found, and what is found is stored in it. *)
Lemma getitem_key (d : dict) (k : string) :
  In k (keys d) -> exists m : pyval, getitem d k = Ok m /\ In m (map snd d).
Proof.
  induction d as [|[k' v] d IH]; cbn [getitem keys map fst snd]; [intros []|].
  destruct (String.eqb_spec k' k) as [->|Hne].
  - intros _. exists v. split; [reflexivity | now left].
  - intros [H|H]; [contradiction|].
    destruct (IH H) as [m [Hm Hin]]. exists m. split; [exact Hm | now right].
Qed.

Lemma In_layout (r : Receiver.t) (k : string) (rs : list Receiver.t) :
  In (r, k) (layout rs) <-> In r rs /\ In k (keys (Receiver.components r)).
Proof.
  unfold layout. rewrite in_flat_map. split.
  - intros [r' [Hr Hk]]. apply in_map_iff in Hk as [k' [[= <- <-] Hk]]. now split.
  - intros [Hr Hk]. exists r. split; [exact Hr|]. now apply in_map.
Qed.

(** With a count for the first receiver at hand, a visited pair can only
    raise the ValueError of the truth test. *)
Lemma datum_at_raise (n : Z) (r : Receiver.t) (k : string) (e : exn) :
  In k (keys (Receiver.components r)) ->
  datum_at (Ok n) (r, k) = Raise e -> e = ValueError.
Proof.
  intros Hk. unfold datum_at; cbn [fst snd].
  destruct (getitem_key _ _ Hk) as [m [-> _]].
  destruct m as [|[|[] [|]]]; cbn [datum]; congruence.
Qed.

Lemma collect_error (n : result Z) (ps : list (Receiver.t * string))
      (l : list Z) (e : exn) :
  collect n ps = (l, Some e) ->
  exists p : Receiver.t * string, In p ps /\ datum_at n p = Raise e.
Proof.
  revert l; induction ps as [|p ps IH]; intros l; cbn [collect]; [discriminate|].
  destruct (datum_at n p) as [x|e'] eqn:E.
  - destruct (collect n ps) as [l' o] eqn:C. intros [= <- ->].
    destruct (IH l' eq_refl) as [q [Hq Hd]]. exists q. split; [now right | exact Hd].
  - intros [= <- <-]. exists p. split; [now left | exact E].
Qed.

Lemma collect_raises (n : result Z) (ps : list (Receiver.t * string))
      (p : Receiver.t * string) (e0 : exn) :
  In p ps -> datum_at n p = Raise e0 ->
  exists (l : list Z) (e : exn), collect n ps = (l, Some e).
Proof.
  induction ps as [|q ps IH]; [intros []|]. cbn [collect].
  intros [->|Hin] Hd.
  - rewrite Hd. now exists [], e0.
  - destruct (datum_at n q) as [x|e]; [|now exists [], e].
    destruct (IH Hin Hd) as [l [e ->]]. now exists (x :: l), e.
Qed.

Lemma Forall_collect_repeat (n : Z) (ps : list (Receiver.t * string)) :
  Forall (fun p => datum_at (Ok n) p = Ok n) ps ->
  collect (Ok n) ps = (repeat n (List.length ps), None).
Proof.
  induction 1 as [|p ps H _ IH]; cbn [collect repeat List.length]; [reflexivity|].
  now rewrite H, IH.
Qed.

(** ** The properties of the specification *)

(** C1, run on its own scenario.  Two receivers over five stations, the
    first with components [{tmi: None}], the second with
    [{bx: three True out of five}]: the read of [vnD] appends [nRx = 5] for
    the first receiver, then the truth test of the five-element mask raises
    ValueError.  No vector is returned, where the claim has [[nRx, 3]]; the
    list built so far stays in [_vnD], and the next read returns it. *)
Theorem vnD_two_receivers_raises :
  vnD (new_survey two_receivers) = (Raise ValueError, half_built) /\
  vnD half_built = (Ok (PyList [5]), half_built).
Proof.
  split; [|reflexivity].
  unfold new_survey. rewrite vnD_unset. reflexivity.
Qed.

(** C2, on the survey of C1 after its first read of [vnD].  That read
    raised and left the list [[5]] in [_vnD]; from there [vnD] returns the
    list, whose entries sum to 5, while [nD] raises AttributeError: a Python
    list has no [sum].  [nD] is not the sum of the entries of [vnD]. *)
Theorem nD_fails_where_vnD_returns :
  snd (vnD (new_survey two_receivers)) = half_built /\
  vnD half_built = (Ok (PyList [5]), half_built) /\
  total (entries (PyList [5])) = 5 /\
  nD half_built = (Raise AttributeError, half_built).
Proof.
  assert (H : vnD (new_survey two_receivers) = (Raise ValueError, half_built)).
  { unfold new_survey. rewrite vnD_unset. reflexivity. }
  rewrite H. repeat split.
Qed.

(** C3, on the survey of C1 after its first read of [vnD].  The two
    receivers have one component each, two in all; [vnD] returns the list
    the raised read left behind, which has the entry of the first receiver
    only.  Its length is 1, not 2. *)
Theorem vnD_short_after_raise :
  snd (vnD (new_survey two_receivers)) = half_built /\
  vnD half_built = (Ok (PyList [5]), half_built) /\
  List.length (entries (PyList [5])) = 1%nat /\
  fold_right Nat.add 0%nat
    (map (fun r => List.length (Receiver.components r))
         (SourceField.receiver_list (source_field (self half_built)))) = 2%nat.
Proof.
  assert (H : vnD (new_survey two_receivers) = (Raise ValueError, half_built)).
  { unfold new_survey. rewrite vnD_unset. reflexivity. }
  rewrite H. repeat split.
Qed.

(** C5: with a non-empty receiver list, [nRx] is the number of locations of
    the first receiver, [receiver_locations] its locations array and
    [components] its component dictionary; the other receivers are not
    looked at, and nothing is written. *)
Theorem delegated_to_first_receiver
        (p : process) (r : Receiver.t) (rs : list Receiver.t) :
  SourceField.receiver_list (source_field (self p)) = r :: rs ->
  nRx p = (Ok (Z.of_nat (List.length (Receiver.locations r))), p) /\
  receiver_locations p = (Ok (Receiver.locations r), p) /\
  components p = (Ok (Receiver.components r), p).
Proof.
  intros H.
  unfold nRx, receiver_locations, components, bind, get_source_field, lift, ret.
  rewrite H. cbn [getitem0]. repeat split.
Qed.

Lemma delegated_to_first_receiver_witness :
  SourceField.receiver_list (source_field (self (new_survey line_and_point)))
    = [rx_tmi; rx_point] /\
  nRx (new_survey line_and_point) = (Ok 5, new_survey line_and_point) /\
  receiver_locations (new_survey line_and_point) = (Ok line5, new_survey line_and_point) /\
  components (new_survey line_and_point) =
    (Ok [("tmi"%string, PyNone)], new_survey line_and_point).
Proof.
  split; [reflexivity|].
  exact (delegated_to_first_receiver (new_survey line_and_point) rx_tmi
           [rx_point] eq_refl).
Defined.

(** C6, as stated, fails on the output: the read of [vnD] that fills the
    cache also prints the list of counts. *)
Lemma vnD_prints :
  stdout (new_survey line_and_point) = [] /\
  stdout (snd (vnD (new_survey line_and_point))) = [[5; 1; 5; 5]].
Proof.
  split; reflexivity.
Qed.

(** C6, amended: whatever reads of [vnD] and [nD] are made, in any order and
    number and whether they return or raise, the source field (receiver
    list, masks, inducing-field parameters) is the one the survey had; besides
    the cache, the reads together add at most one line to the standard
    output. *)
Theorem reads_keep_source_field (l : list access) (p : process) :
  source_field (self (run l p)) = source_field (self p) /\
  exists printed : list (list Z),
    stdout (run l p) = stdout p ++ printed /\ (List.length printed <= 1)%nat.
Proof.
  destruct l as [|a l].
  - split; [reflexivity|]. exists []. cbn. rewrite app_nil_r. auto.
  - rewrite run_cons. apply step_frame.
Qed.




(** C9: [eval] returns its argument, whatever it is, and writes nothing. *)
Theorem eval_is_identity (A : Type) (fields : A) (p : process) :
  eval fields p = (Ok fields, p).
Proof.
  unfold eval, ret. reflexivity.
Qed.

(** C4, as stated, fails: from a source field with no receiver the
    constructor returns a survey. *)
Lemma init_no_receivers_returns :
  SourceField.receiver_list no_receivers = [] /\
  __init__ no_receivers =
    Ok {| source_field := no_receivers; _vnD := None |}.
Proof.
  split; reflexivity.
Qed.

(** C4, amended: the constructor returns a survey for every source field,
    the ones with an empty receiver list included; the survey holds that
    source field and an empty cache, and no exception is raised. *)
Theorem init_returns (sf : SourceField.t) :
  exists s : MagneticSurvey.t,
    __init__ sf = Ok s /\ source_field s = sf /\ _vnD s = None.
Proof.
  eexists. unfold __init__, BaseSurvey__init__. repeat split.
Qed.

(** C10, as stated, fails on [vnD]: with no receiver its loops run zero
    times, nothing indexes the list, and the empty array is returned (and
    printed). *)
Lemma vnD_no_receivers_returns :
  __init__ no_receivers = Ok (self (new_survey no_receivers)) /\
  vnD (new_survey no_receivers) =
  (Ok (NdArray []),
   {| self := {| source_field := no_receivers; _vnD := Some (NdArray []) |};
      stdout := [[]] |}).
Proof.
  split; reflexivity.
Qed.

(** C10, amended: with an empty receiver list the constructor returns a
    survey; on it [nRx], [receiver_locations] and [components] raise
    IndexError at [receiver_list[0]], while [vnD] returns the empty array
    and [nD] returns 0. *)
Theorem empty_receiver_list_deferred (sf : SourceField.t) (out : list (list Z)) :
  SourceField.receiver_list sf = [] ->
  __init__ sf = Ok {| source_field := sf; _vnD := None |} /\
  (let p := {| self := {| source_field := sf; _vnD := None |}; stdout := out |} in
   let q := {| self := {| source_field := sf; _vnD := Some (NdArray []) |};
               stdout := out ++ [[]] |} in
   nRx p = (Raise IndexError, p) /\
   receiver_locations p = (Raise IndexError, p) /\
   components p = (Raise IndexError, p) /\
   vnD p = (Ok (NdArray []), q) /\
   nD p = (Ok 0, q)).
Proof.
  intros H. split; [reflexivity|]. cbv zeta.
  assert (Hv : vnD (Process (mk sf None) out) =
               (Ok (NdArray []), Process (mk sf (Some (NdArray []))) (out ++ [[]]))).
  { rewrite vnD_unset, H. reflexivity. }
  unfold nRx, receiver_locations, components, bind, get_source_field, lift, ret.
  cbn [self source_field]. rewrite H. cbn [getitem0].
  repeat split; [exact Hv|].
  rewrite nD_unfold, Hv. reflexivity.
Qed.

Lemma empty_receiver_list_deferred_witness :
  SourceField.receiver_list no_receivers = [] /\
  nRx (new_survey no_receivers) = (Raise IndexError, new_survey no_receivers) /\
  receiver_locations (new_survey no_receivers) = (Raise IndexError, new_survey no_receivers) /\
  components (new_survey no_receivers) = (Raise IndexError, new_survey no_receivers) /\
  nD (new_survey no_receivers) =
    (Ok 0,
     {| self := {| source_field := no_receivers; _vnD := Some (NdArray []) |};
        stdout := [[]] |}).
Proof.
  pose proof (empty_receiver_list_deferred no_receivers [] eq_refl)
    as [_ [H1 [H2 [H3 [_ H5]]]]].
  split; [reflexivity|].
  split; [exact H1|]. split; [exact H2|]. split; [exact H3 | exact H5].
Defined.

(** ** Further properties of [vnD] *)

(** X1: on a survey whose cache is empty, a component whose stored mask has
    two or more elements makes the read of [vnD] raise ValueError, whatever
    the other receivers and components are; [_vnD] is left holding a Python
    list. *)
Theorem vnD_raises_on_long_mask
        (sf : SourceField.t) (out : list (list Z)) (r : Receiver.t) (k : string)
        (b1 b2 : bool) (a : list bool) :
  In r (SourceField.receiver_list sf) ->
  getitem (Receiver.components r) k = Ok (BoolArray (b1 :: b2 :: a)) ->
  exists l : list Z,
    vnD (Process (mk sf None) out) =
    (Raise ValueError, Process (mk sf (Some (PyList l))) out).
Proof.
  intros Hr Hk. rewrite vnD_unset.
  assert (Hin : In (r, k) (layout (SourceField.receiver_list sf))).
  { apply In_layout. split; [exact Hr | exact (getitem_Ok_key _ _ _ Hk)]. }
  assert (Hd : datum_at (first_count sf) (r, k) = Raise ValueError).
  { unfold datum_at; cbn [fst snd]. rewrite Hk. destruct b1; reflexivity. }
  destruct (collect_raises _ _ _ _ Hin Hd) as [l [e C]]. rewrite C.
  exists l. destruct (collect_error _ _ _ _ C) as [[r' k'] [Hin' Hd']].
  apply In_layout in Hin' as [Hr' Hk'].
  unfold first_count in Hd'.
  destruct (SourceField.receiver_list sf) as [|r0 rs]; [destruct Hr|].
  now rewrite (datum_at_raise _ _ _ _ Hk' Hd').
Qed.

Lemma vnD_raises_on_long_mask_witness :
  exists l : list Z,
    vnD (new_survey two_receivers) =
    (Raise ValueError,
     {| self := {| source_field := two_receivers; _vnD := Some (PyList l) |};
        stdout := [] |}).
Proof.
  exact (vnD_raises_on_long_mask two_receivers [] rx_bx_masked "bx"%string
           true true [true; false; false] (or_intror (or_introl eq_refl))
           eq_refl).
Defined.

(** X2: when every stored mask is [None] or empty, the read of [vnD] on an
    empty cache returns, with the location count of the first receiver for
    every component of every receiver. *)
Theorem vnD_all_unmasked
        (sf : SourceField.t) (out : list (list Z))
        (r0 : Receiver.t) (rs : list Receiver.t) :
  SourceField.receiver_list sf = r0 :: rs ->
  Forall (fun r => Forall (fun m => m = PyNone \/ m = BoolArray [])
                          (map snd (Receiver.components r)))
         (r0 :: rs) ->
  let v := repeat (Z.of_nat (List.length (Receiver.locations r0)))
                  (List.length (layout (r0 :: rs))) in
  vnD (Process (mk sf None) out) =
  (Ok (NdArray v), Process (mk sf (Some (NdArray v))) (out ++ [v])).
Proof.
  intros H HF. cbv zeta. rewrite vnD_unset. unfold first_count. rewrite H.
  rewrite Forall_collect_repeat; [reflexivity|].
  apply Forall_forall. intros [r k] Hin.
  apply In_layout in Hin as [Hr Hk].
  destruct (getitem_key _ _ Hk) as [m [Hm Hs]].
  unfold datum_at; cbn [fst snd]. rewrite Hm.
  rewrite Forall_forall in HF. specialize (HF r Hr).
  rewrite Forall_forall in HF. destruct (HF m Hs) as [-> | ->]; reflexivity.
Qed.

Lemma vnD_all_unmasked_witness :
  vnD (new_survey tmi_only) =
  (Ok (NdArray [5]),
   {| self := {| source_field := tmi_only; _vnD := Some (NdArray [5]) |};
      stdout := [[5]] |}).
Proof.
  refine (vnD_all_unmasked tmi_only [] rx_tmi [] eq_refl _).
  repeat constructor.
Defined.

(** X3: a read of [vnD] that raises leaves a Python list in [_vnD]; the
    next read of [vnD] returns that list as it is, and [nD] then fails on
    its missing [sum]. *)
Theorem raised_read_leaves_list
        (sf : SourceField.t) (out : list (list Z)) (e : exn) (p' : process) :
  vnD (Process (mk sf None) out) = (Raise e, p') ->
  exists l : list Z,
    p' = Process (mk sf (Some (PyList l))) out /\
    vnD p' = (Ok (PyList l), p') /\
    nD p' = (Raise AttributeError, p').
Proof.
  rewrite vnD_unset.
  destruct (collect _ _) as [l [x|]]; [|discriminate].
  intros [= <- <-]. exists l. repeat split.
Qed.

Lemma raised_read_leaves_list_witness :
  exists l : list Z,
    half_built = Process (mk two_receivers (Some (PyList l))) [] /\
    vnD half_built = (Ok (PyList l), half_built) /\
    nD half_built = (Raise AttributeError, half_built).
Proof.
  exact (raised_read_leaves_list two_receivers [] ValueError half_built eq_refl).
Defined.

(** ** The layout under changes of the receiver list *)

Lemma layout_app (rs1 rs2 : list Receiver.t) :
  layout (rs1 ++ rs2) = layout rs1 ++ layout rs2.
Proof.
  unfold layout. apply flat_map_app.
Qed.

(** The count of a pair looks at the components of its receiver only. *)
Lemma datum_at_components (n : result Z) (r r' : Receiver.t) (k : string) :
  Receiver.components r = Receiver.components r' ->
  datum_at n (r, k) = datum_at n (r', k).
Proof.
  unfold datum_at; cbn [fst snd]. now intros ->.
Qed.

Lemma collect_map (n : result Z) (ps qs : list (Receiver.t * string)) :
  map (datum_at n) ps = map (datum_at n) qs -> collect n ps = collect n qs.
Proof.
  revert qs; induction ps as [|p ps IH]; intros [|q qs]; cbn [map collect];
    try discriminate; [reflexivity|].
  intros [= -> H]. now rewrite (IH qs H).
Qed.

Lemma layout_components (n : result Z) (rs rs' : list Receiver.t) :
  map Receiver.components rs = map Receiver.components rs' ->
  map (datum_at n) (layout rs) = map (datum_at n) (layout rs').
Proof.
  revert rs'; induction rs as [|r rs IH]; intros [|r' rs']; cbn [map];
    try discriminate; [reflexivity|].
  intros [= Hc H].
  change (layout (r :: rs)) with (layout ([r] ++ rs)).
  change (layout (r' :: rs')) with (layout ([r'] ++ rs')).
  rewrite !layout_app, !map_app, (IH rs' H). f_equal.
  unfold layout; cbn [flat_map]. rewrite !app_nil_r, !map_map, <- Hc.
  apply map_ext. intros k. now apply datum_at_components.
Qed.

(** With a count for the first receiver at hand, a visited pair whose
    count is taken contributes that count or 1. *)
Lemma datum_at_value (n x : Z) (r : Receiver.t) (k : string) :
  datum_at (Ok n) (r, k) = Ok x -> x = n \/ x = 1.
Proof.
  unfold datum_at; cbn [fst snd].
  destruct (getitem (Receiver.components r) k) as [m|e]; [|discriminate].
  destruct m as [|[|[] [|]]]; cbn [datum]; intros [= <-]; auto.
Qed.

(** On a non-empty receiver list the loops can only be stopped by the
    ValueError of a truth test. *)
Lemma collect_layout_error (sf : SourceField.t) (l : list Z) (e : exn) :
  collect (first_count sf) (layout (SourceField.receiver_list sf)) = (l, Some e) ->
  e = ValueError.
Proof.
  intros C. destruct (collect_error _ _ _ _ C) as [[r k] [Hin Hd]].
  apply In_layout in Hin as [Hr Hk]. unfold first_count in Hd.
  destruct (SourceField.receiver_list sf) as [|r0 rs]; [destruct Hr|].
  exact (datum_at_raise _ _ _ _ Hk Hd).
Qed.

Lemma collect_returns (n : result Z) (ps : list (Receiver.t * string)) :
  (forall p, In p ps -> exists x : Z, datum_at n p = Ok x) ->
  exists l : list Z, collect n ps = (l, None).
Proof.
  induction ps as [|p ps IH]; intros H; cbn [collect]; [now exists []|].
  destruct (H p (or_introl eq_refl)) as [x ->].
  destruct IH as [l ->]; [intros q Hq; apply H; now right|].
  now exists (x :: l).
Qed.

Lemma total_repeat (n : Z) (k : nat) : total (repeat n k) = n * Z.of_nat k.
Proof.
  induction k as [|k IH]; [cbn; lia|].
  cbn [repeat total fold_right]. fold (total (repeat n k)). rewrite IH. lia.
Qed.

Lemma total_bounds (n : Z) (l : list Z) :
  0 <= n -> Forall (fun x => x = n \/ x = 1) l ->
  0 <= total l <= Z.max n 1 * Z.of_nat (List.length l).
Proof.
  intros Hn. induction 1 as [|x l Hx _ IH]; [cbn; lia|].
  cbn [total fold_right List.length]. fold (total l).
  rewrite Nat2Z.inj_succ. destruct Hx as [-> | ->]; nia.
Qed.

Lemma Forall2_datum_values (n : Z) (ps : list (Receiver.t * string))
      (l : list Z) :
  Forall2 (fun p x => datum_at (Ok n) p = Ok x) ps l ->
  Forall (fun x => x = n \/ x = 1) l.
Proof.
  induction 1 as [|[r k] x ps l H _ IH]; constructor; [|exact IH].
  exact (datum_at_value _ _ _ _ H).
Qed.

(** With no mask set anywhere, every pair counts the locations of the first
    receiver. *)
Lemma collect_unmasked (n : Z) (rs : list Receiver.t) :
  Forall (fun r => Forall (fun m => m = PyNone \/ m = BoolArray [])
                          (map snd (Receiver.components r))) rs ->
  collect (Ok n) (layout rs) = (repeat n (List.length (layout rs)), None).
Proof.
  intros HF. apply Forall_collect_repeat.
  apply Forall_forall. intros [r k] Hin.
  apply In_layout in Hin as [Hr Hk].
  destruct (getitem_key _ _ Hk) as [m [Hm Hs]].
  unfold datum_at; cbn [fst snd]. rewrite Hm.
  rewrite Forall_forall in HF. specialize (HF r Hr).
  rewrite Forall_forall in HF. destruct (HF m Hs) as [-> | ->]; reflexivity.
Qed.

(** ** Further properties of the survey *)

(** X4: a read of [vnD] raises only when the cache is empty, and then only
    the ValueError of a truth test: the lookups by key never miss, [.sum()]
    is never called on [None], and [self.nRx] never indexes an empty
    receiver list, since it is only evaluated inside the receiver loop. *)
Theorem vnD_raises_only_ValueError (p p' : process) (e : exn) :
  vnD p = (Raise e, p') ->
  e = ValueError /\ _vnD (self p) = None.
Proof.
  cache_cases p; [discriminate|].
  loop_cases l x; [|discriminate].
  intros [= <- _]. split; [|reflexivity].
  eapply collect_layout_error; eassumption.
Qed.

Lemma vnD_raises_only_ValueError_witness :
  vnD (new_survey two_receivers) = (Raise ValueError, half_built) /\
  ValueError = ValueError /\ _vnD (self (new_survey two_receivers)) = None.
Proof.
  split; [reflexivity|].
  exact (vnD_raises_only_ValueError (new_survey two_receivers) half_built
           ValueError eq_refl).
Defined.

(** X5: on an empty cache the read of [vnD] returns exactly when no
    component of any receiver stores a mask of two or more elements. *)
Theorem vnD_returns_iff_short_masks (sf : SourceField.t) (out : list (list Z)) :
  (exists l : list Z,
     vnD (Process (mk sf None) out) =
     (Ok (NdArray l), Process (mk sf (Some (NdArray l))) (out ++ [l])))
  <->
  (forall (r : Receiver.t) (k : string) (a : list bool),
     In r (SourceField.receiver_list sf) ->
     getitem (Receiver.components r) k = Ok (BoolArray a) ->
     (List.length a <= 1)%nat).
Proof.
  rewrite vnD_unset. split.
  - intros [l H] r k a Hr Hk.
    destruct (collect _ _) as [l' [x|]] eqn:C; [discriminate|].
    destruct a as [|b1 [|b2 a]]; cbn [List.length]; auto.
    assert (Hin : In (r, k) (layout (SourceField.receiver_list sf))).
    { apply In_layout. split; [exact Hr | exact (getitem_Ok_key _ _ _ Hk)]. }
    assert (Hd : datum_at (first_count sf) (r, k) = Raise ValueError).
    { unfold datum_at; cbn [fst snd]. rewrite Hk. destruct b1; reflexivity. }
    destruct (collect_raises _ _ _ _ Hin Hd) as [l0 [e C']]. congruence.
  - intros H.
    destruct (collect_returns (first_count sf)
                (layout (SourceField.receiver_list sf))) as [l ->];
      [|now exists l].
    intros [r k] Hin. apply In_layout in Hin as [Hr Hk].
    destruct (getitem_key _ _ Hk) as [m [Hm _]].
    unfold datum_at, first_count; cbn [fst snd]. rewrite Hm.
    destruct (SourceField.receiver_list sf) as [|r0 rs] eqn:E; [destruct Hr|].
    destruct m as [|[|b [|b' a]]]; cbn [datum]; eauto.
    + destruct b; eauto.
    + specialize (H r k _ Hr Hm). cbn in H. lia.
Qed.

(** X6: every entry of a vector that [vnD] returns is the location count of
    the first receiver or 1; the sum of a mask is only ever taken of a mask
    that is [[True]]. *)
Theorem vnD_entries_nRx_or_one
        (p p' : process) (v : vec) (r0 : Receiver.t) (rs : list Receiver.t) :
  coherent p ->
  SourceField.receiver_list (source_field (self p)) = r0 :: rs ->
  vnD p = (Ok v, p') ->
  Forall (fun x => x = Z.of_nat (List.length (Receiver.locations r0)) \/ x = 1)
         (entries v).
Proof.
  intros Hc Hr Hv.
  pose proof (collect_Forall2 _ _ _ (vnD_coherent p p' v Hc Hv)) as HF.
  unfold first_count in HF. rewrite Hr in HF. unfold shape0 in HF.
  exact (Forall2_datum_values _ _ _ HF).
Qed.

Lemma vnD_entries_nRx_or_one_witness :
  coherent (new_survey line_and_point) /\
  vnD (new_survey line_and_point) = (Ok (NdArray [5; 1; 5; 5]), counted) /\
  Forall (fun x => x = 5 \/ x = 1) [5; 1; 5; 5].
Proof.
  split; [exact I|]. split; [reflexivity|].
  exact (vnD_entries_nRx_or_one (new_survey line_and_point) counted
           (NdArray [5; 1; 5; 5]) rx_tmi [rx_point] I eq_refl eq_refl).
Defined.

(** X7: what [vnD] and [nD] give depends on the source field only through
    the component dictionaries of the receivers and the location count of
    the first receiver: the locations of the other receivers and the
    inducing-field parameters are never read. *)
Theorem vnD_reads_components_and_first_count
        (sf sf' : SourceField.t) (out out' : list (list Z)) :
  map Receiver.components (SourceField.receiver_list sf) =
  map Receiver.components (SourceField.receiver_list sf') ->
  fst (nRx (Process (mk sf None) out)) = fst (nRx (Process (mk sf' None) out')) ->
  fst (vnD (Process (mk sf None) out)) = fst (vnD (Process (mk sf' None) out')) /\
  fst (nD (Process (mk sf None) out)) = fst (nD (Process (mk sf' None) out')).
Proof.
  intros Hc Hn. rewrite !nRx_first_count in Hn. cbn [fst self source_field] in Hn.
  assert (C : collect (first_count sf) (layout (SourceField.receiver_list sf)) =
              collect (first_count sf') (layout (SourceField.receiver_list sf'))).
  { rewrite <- Hn. apply collect_map. now apply layout_components. }
  rewrite !nD_unfold, !vnD_unset, C. clear C.
  destruct (collect _ _) as [l [x|]]; split; reflexivity.
Qed.

Lemma vnD_reads_components_and_first_count_witness :
  map Receiver.locations (SourceField.receiver_list line_and_point_moved)
    = [line5; line3] /\
  map Receiver.components (SourceField.receiver_list line_and_point_moved) =
  map Receiver.components (SourceField.receiver_list line_and_point) /\
  fst (vnD (new_survey line_and_point_moved)) = Ok (NdArray [5; 1; 5; 5]) /\
  fst (nD (new_survey line_and_point_moved)) = Ok 16.
Proof.
  split; [reflexivity|]. split; [reflexivity|].
  exact (vnD_reads_components_and_first_count line_and_point_moved
           line_and_point [] [] eq_refl eq_refl).
Defined.

(** X8: with a non-empty receiver list and no mask set anywhere, [nD] read
    on an empty cache is the location count of the first receiver times the
    number of components of all the receivers together. *)
Theorem nD_all_unmasked
        (sf : SourceField.t) (out : list (list Z))
        (r0 : Receiver.t) (rs : list Receiver.t) :
  SourceField.receiver_list sf = r0 :: rs ->
  Forall (fun r => Forall (fun m => m = PyNone \/ m = BoolArray [])
                          (map snd (Receiver.components r)))
         (r0 :: rs) ->
  fst (nD (Process (mk sf None) out)) =
  Ok (Z.of_nat (List.length (Receiver.locations r0)) *
      Z.of_nat (fold_right Nat.add 0%nat
                  (map (fun r => List.length (Receiver.components r))
                       (r0 :: rs)))).
Proof.
  intros H HF. rewrite nD_unfold, vnD_unset. unfold first_count.
  rewrite H. unfold shape0. rewrite (collect_unmasked _ _ HF).
  cbn [fst vec_sum]. now rewrite total_repeat, length_layout.
Qed.

Lemma nD_all_unmasked_witness :
  fst (vnD (new_survey line_and_gradient)) = Ok (NdArray [5; 5; 5]) /\
  fst (nD (new_survey line_and_gradient)) = Ok (5 * 3).
Proof.
  split; [reflexivity|].
  refine (nD_all_unmasked line_and_gradient [] rx_tmi [rx_gradient] eq_refl _).
  repeat first [ left; reflexivity | right; reflexivity | constructor ].
Defined.

(** X9: [nRx], [receiver_locations] and [components] write nothing, whether
    they return or raise; [nRx] is the number of rows of what
    [receiver_locations] returns; the three raise together, and what they
    raise is the IndexError of an empty receiver list. *)
Theorem first_receiver_reads (p : process) :
  (snd (nRx p) = p /\ snd (receiver_locations p) = p /\ snd (components p) = p) /\
  fst (nRx p) =
    match fst (receiver_locations p) with
    | Ok locs => Ok (Z.of_nat (List.length locs))
    | Raise e => Raise e
    end /\
  (forall e : exn,
     fst (receiver_locations p) = Raise e <-> fst (components p) = Raise e) /\
  (forall e : exn,
     fst (components p) = Raise e ->
     e = IndexError /\ SourceField.receiver_list (source_field (self p)) = []).
Proof.
  unfold nRx, receiver_locations, components, bind, get_source_field, lift, ret.
  destruct (SourceField.receiver_list (source_field (self p))) as [|r rs];
    cbn [getitem0 fst snd].
  - repeat split; congruence.
  - repeat split; try discriminate; intros; discriminate.
Qed.

(** X10: on an empty cache, a read of [vnD] that returns has printed
    exactly the vector it returns, once, and has cached it as an array; a
    read that raises has printed nothing. *)
Theorem vnD_prints_what_it_returns
        (sf : SourceField.t) (out : list (list Z))
        (r : result vec) (p' : process) :
  vnD (Process (mk sf None) out) = (r, p') ->
  match r with
  | Ok v =>
      stdout p' = out ++ [entries v] /\
      self p' = mk sf (Some v) /\ v = NdArray (entries v)
  | Raise _ => stdout p' = out
  end.
Proof.
  rewrite vnD_unset. loop_cases l x; intros [= <- <-]; cbn [stdout self];
    repeat split.
Qed.

Lemma vnD_prints_what_it_returns_witness :
  vnD (new_survey line_and_point) = (Ok (NdArray [5; 1; 5; 5]), counted) /\
  stdout counted = [] ++ [[5; 1; 5; 5]] /\
  self counted = mk line_and_point (Some (NdArray [5; 1; 5; 5])) /\
  NdArray [5; 1; 5; 5] = NdArray [5; 1; 5; 5].
Proof.
  split; [reflexivity|].
  exact (vnD_prints_what_it_returns line_and_point [] (Ok (NdArray [5; 1; 5; 5]))
           counted eq_refl).
Defined.

(** X11: a receiver with no component, anywhere after the first, adds
    nothing: [vnD] gives what it gives without that receiver. *)
Theorem receiver_without_components_is_skipped
        (r0 r : Receiver.t) (rs1 rs2 : list Receiver.t)
        (par par' : float * float * float) (out out' : list (list Z)) :
  Receiver.components r = [] ->
  fst (vnD (Process (mk (SourceField.mk (r0 :: rs1 ++ r :: rs2) par) None) out)) =
  fst (vnD (Process (mk (SourceField.mk (r0 :: rs1 ++ rs2) par') None) out')).
Proof.
  intros Hr. rewrite !vnD_unset. unfold first_count.
  cbn [SourceField.receiver_list].
  assert (L : layout (r0 :: rs1 ++ r :: rs2) = layout (r0 :: rs1 ++ rs2)).
  { rewrite !app_comm_cons.
    change (r :: rs2) with ([r] ++ rs2). rewrite !layout_app.
    unfold layout at 2; cbn [flat_map]. rewrite Hr. reflexivity. }
  rewrite L. destruct (collect _ _) as [l [x|]]; reflexivity.
Qed.

Lemma receiver_without_components_is_skipped_witness :
  fst (vnD (new_survey
              (SourceField.mk [rx_tmi; rx_silent; rx_point] inducing_field))) =
  Ok (NdArray [5; 1; 5; 5]).
Proof.
  exact (receiver_without_components_is_skipped rx_tmi rx_silent [] [rx_point]
           inducing_field inducing_field [] [] eq_refl).
Defined.

(** X12: receivers added at the end of the list leave the entries of the
    receivers before them as they were: when [vnD] returns for the longer
    list, it returns for the shorter one, and the longer vector is the
    shorter one followed by one entry per component of the added
    receivers. *)
Theorem vnD_of_longer_receiver_list
        (r0 : Receiver.t) (rs1 rs2 : list Receiver.t)
        (par par' : float * float * float) (out out' : list (list Z))
        (v : vec) (p' : process) :
  vnD (Process (mk (SourceField.mk (r0 :: rs1 ++ rs2) par) None) out) = (Ok v, p') ->
  exists l1 l2 : list Z,
    fst (vnD (Process (mk (SourceField.mk (r0 :: rs1) par') None) out')) =
      Ok (NdArray l1) /\
    entries v = l1 ++ l2 /\
    List.length l2 =
      fold_right Nat.add 0%nat
        (map (fun r => List.length (Receiver.components r)) rs2).
Proof.
  rewrite !vnD_unset. unfold first_count. cbn [SourceField.receiver_list].
  rewrite app_comm_cons, layout_app, collect_app.
  destruct (collect _ (layout (r0 :: rs1))) as [l1 [x|]]; [discriminate|].
  destruct (collect _ (layout rs2)) as [l2 [x|]] eqn:C2; [discriminate|].
  intros [= <- _]. exists l1, l2. repeat split.
  rewrite <- (Forall2_length (collect_Forall2 _ _ _ C2)). apply length_layout.
Qed.

Lemma vnD_of_longer_receiver_list_witness :
  exists l1 l2 : list Z,
    fst (vnD (new_survey tmi_only)) = Ok (NdArray l1) /\
    [5; 1; 5; 5] = l1 ++ l2 /\
    List.length l2 = 3%nat.
Proof.
  exact (vnD_of_longer_receiver_list rx_tmi [] [rx_point] inducing_field
           inducing_field [] [] (NdArray [5; 1; 5; 5]) counted eq_refl).
Defined.

(** X13: the receivers after the one whose mask stops the loops are never
    looked at: when the read of [vnD] raises for a receiver list, it raises
    the same exception and leaves the same half-built list for every list
    that continues it. *)
Theorem vnD_raise_ignores_later_receivers
        (r0 : Receiver.t) (rs1 rs2 : list Receiver.t)
        (par par' : float * float * float) (out out' : list (list Z))
        (e : exn) (p' : process) :
  vnD (Process (mk (SourceField.mk (r0 :: rs1) par) None) out) = (Raise e, p') ->
  exists q : process,
    vnD (Process (mk (SourceField.mk (r0 :: rs1 ++ rs2) par') None) out') =
      (Raise e, q) /\
    _vnD (self q) = _vnD (self p').
Proof.
  rewrite !vnD_unset. unfold first_count. cbn [SourceField.receiver_list].
  rewrite app_comm_cons, layout_app, collect_app.
  destruct (collect _ (layout (r0 :: rs1))) as [l1 [x|]]; [|discriminate].
  intros [= <- <-]. eexists. split; reflexivity.
Qed.

Lemma vnD_raise_ignores_later_receivers_witness :
  exists q : process,
    vnD (new_survey
           (SourceField.mk [rx_tmi; rx_bx_masked; rx_point] inducing_field)) =
      (Raise ValueError, q) /\
    _vnD (self q) = Some (PyList [5]).
Proof.
  exact (vnD_raise_ignores_later_receivers rx_tmi [rx_bx_masked] [rx_point]
           inducing_field inducing_field [] [] ValueError half_built eq_refl).
Defined.

(** X14: on a survey with receivers whose cache is empty or up to date, a
    returned [nD] is never negative and is at most the larger of [nRx] and 1
    times the number of components of all the receivers together. *)
Theorem nD_bounds
        (p p' : process) (d : Z) (r0 : Receiver.t) (rs : list Receiver.t) :
  coherent p ->
  SourceField.receiver_list (source_field (self p)) = r0 :: rs ->
  nD p = (Ok d, p') ->
  0 <= d <=
  Z.max (Z.of_nat (List.length (Receiver.locations r0))) 1 *
  Z.of_nat (fold_right Nat.add 0%nat
              (map (fun r => List.length (Receiver.components r)) (r0 :: rs))).
Proof.
  intros Hc Hr. rewrite nD_unfold.
  destruct (vnD p) as [[v|e] q] eqn:Hv; [|discriminate].
  pose proof (collect_Forall2 _ _ _ (vnD_coherent p q v Hc Hv)) as HF.
  rewrite (vnD_array p q v (coherent_settled p Hc) Hv). cbn [vec_sum].
  intros [= <- _].
  rewrite <- length_layout, <- Hr, (Forall2_length HF).
  unfold first_count in HF. rewrite Hr in HF. unfold shape0 in HF.
  apply total_bounds; [lia|]. exact (Forall2_datum_values _ _ _ HF).
Qed.

Lemma nD_bounds_witness :
  coherent (new_survey line_and_point) /\
  nD (new_survey line_and_point) = (Ok 16, counted) /\
  0 <= 16 <= Z.max 5 1 * 4.
Proof.
  split; [exact I|]. split; [reflexivity|].
  exact (nD_bounds (new_survey line_and_point) counted 16 rx_tmi [rx_point]
           I eq_refl eq_refl).
Defined.

(** X15: [nD] raises in two cases only: the ValueError of a truth test,
    when it has to compute [vnD] from an empty cache, and the AttributeError
    of [sum], when the cache holds the Python list an earlier read left
    behind.  It never raises IndexError or KeyError. *)
Theorem nD_raises_only (p p' : process) (e : exn) :
  nD p = (Raise e, p') ->
  (e = ValueError /\ _vnD (self p) = None) \/
  (e = AttributeError /\ exists l : list Z, _vnD (self p) = Some (PyList l)).
Proof.
  rewrite nD_unfold. cache_cases p.
  - destruct c as [l|l]; cbn [vec_sum]; [|discriminate].
    intros [= <- _]. right. split; [reflexivity | now exists l].
  - loop_cases l x; cbn [vec_sum]; [|discriminate].
    intros [= <- _]. left. split; [|reflexivity].
    eapply collect_layout_error; eassumption.
Qed.

Lemma nD_raises_only_witness :
  nD half_built = (Raise AttributeError, half_built) /\
  ((AttributeError = ValueError /\ _vnD (self half_built) = None) \/
   (AttributeError = AttributeError /\
    exists l : list Z, _vnD (self half_built) = Some (PyList l))).
Proof.
  split; [reflexivity|].
  exact (nD_raises_only half_built half_built AttributeError eq_refl).
Defined.

(** X16: after any read of [vnD] or [nD], returned or raised, [_vnD] is set
    and every later read of [vnD] returns it as it is, without writing
    anything and without looking at the source field again, whatever the
    source field has become. *)
Theorem vnD_after_a_read_is_the_cache
        (a : access) (p : process) (sf : SourceField.t) :
  exists v : vec,
    _vnD (self (step a p)) = Some v /\
    vnD (with_source_field sf (step a p)) =
      (Ok v, with_source_field sf (step a p)).
Proof.
  destruct (step_sets_cache a p) as [v Hv]. exists v. split; [exact Hv|].
  destruct (step a p) as [[sf' c] out]. cbn [self _vnD] in Hv. subst c.
  unfold with_source_field; cbn [self _vnD stdout]. apply vnD_cached.
Qed.

(** ** Surveys whose reads have returned *)

(** X17: when [_vnD] is unset or holds an array, as in every survey on
    which no read has raised, and a read of [vnD] returns, [nD] read in its
    place returns the sum of the entries of that vector, and so does [nD]
    read after it. *)
Theorem nD_is_total_of_vnD (p p' : process) (v : vec) :
  settled p ->
  vnD p = (Ok v, p') ->
  nD p = (Ok (total (entries v)), p') /\
  nD p' = (Ok (total (entries v)), p').
Proof.
  intros Hs Hv.
  pose proof (vnD_array p p' v Hs Hv) as Ha.
  destruct (vnD_post p p' v Hv) as [Hc _].
  split.
  - rewrite nD_unfold, Hv, Ha. reflexivity.
  - destruct p' as [[sf c] out]; cbn [self _vnD] in Hc; subst c.
    rewrite nD_unfold, vnD_cached, Ha. reflexivity.
Qed.

Lemma nD_is_total_of_vnD_witness :
  settled (new_survey line_and_point) /\
  vnD (new_survey line_and_point) = (Ok (NdArray [5; 1; 5; 5]), counted) /\
  nD (new_survey line_and_point) = (Ok 16, counted) /\
  nD counted = (Ok 16, counted).
Proof.
  split; [exact I|]. split; [reflexivity|].
  exact (nD_is_total_of_vnD (new_survey line_and_point) counted
           (NdArray [5; 1; 5; 5]) I eq_refl).
Defined.




